(** * ESP-AT client example (stm32l496g-discovery/client_rtos/src/main.c)

    A shallow embedding of the application code of [main.c]: the request
    buffer [req_data], the connection callback [conn_callback_func], the
    stack callback [esp_callback_func] and the start-up task [init_thread];
    further down the board bring-up, [main], [LL_Init], [SystemClock_Config],
    [USART_Printf_Init] and the character handler of [printf].

    The three functions are straight-line code around calls into the ESP-AT
    library, the station manager, the kernel and [printf].  They are written
    here as terms of a free monad over the signature of those calls, and run
    against an arbitrary environment that answers every call; the run yields
    the function's return value and the trace of calls it made. *)

From Stdlib Require Import ZArith List String Ascii Strings.Byte Bool Lia.
Import ListNotations.

Local Open Scope string_scope.
Local Open Scope list_scope.
Local Open Scope Z_scope.

(* ================================================================= *)
(** ** Library types used by [main.c] *)

(** Modelled from the spec: the declaration of [espr_t] is in [esp/esp.h],
    which is not among the sources.  [main.c] names the members [espOK] and
    [espERR]; the spec speaks of "a value other than espOK", so every other
    member of the enumeration is kept as [espr_other] with its number. *)
Inductive espr_t : Type :=
| espOK
| espERR
| espr_other (code : nat).

Definition espr_eqb (a b : espr_t) : bool :=
  match a, b with
  | espOK, espOK => true
  | espERR, espERR => true
  | espr_other m, espr_other n => Nat.eqb m n
  | _, _ => false
  end.

(** Modelled from the spec: the event categories of [esp_evt_type_t]
    ([esp/esp.h], not among the sources).  The eight members below are the ones
    [main.c] switches on; [ESP_EVT_OTHER] stands for every other category
    the firmware may report. *)
Inductive esp_evt_type_t : Type :=
| ESP_EVT_INIT_FINISH
| ESP_EVT_RESET
| ESP_EVT_RESET_FINISH
| ESP_EVT_AT_VERSION_NOT_SUPPORTED
| ESP_EVT_CONN_ACTIVE
| ESP_EVT_CONN_CLOSED
| ESP_EVT_CONN_DATA_SENT
| ESP_EVT_CONN_DATA_RECV
| ESP_EVT_OTHER (n : nat).

(** Pointers are machine addresses; [NULL] is address zero. *)
Definition esp_conn_p : Type := Z.
Definition esp_pbuf_p : Type := Z.
Definition NULL : Z := 0.

(** Modelled from the spec: [esp_sw_version_t] ([esp/esp.h], not among the
    sources), the (major, minor, patch) triple of a firmware version. *)
Record esp_sw_version_t : Type := mk_version {
  major : Z;
  minor : Z;
  patch : Z
}.

(** Modelled from the spec: [esp_evt_t] ([esp/esp.h], not among the sources).  An
    event has a category and a payload; the record holds what the four
    accessors called by [main.c] read from it. *)
Record esp_evt_t : Type := mk_evt {
  evt_type : esp_evt_type_t;
  evt_conn : esp_conn_p;
  evt_forced : bool;
  evt_buff : esp_pbuf_p
}.

(** Modelled from the spec: the accessors of the library (not among the
    sources) are reads of the event, without effect. *)
Definition esp_evt_get_type (evt : esp_evt_t) : esp_evt_type_t := evt_type evt.
Definition esp_conn_get_from_evt (evt : esp_evt_t) : esp_conn_p := evt_conn evt.
Definition esp_evt_conn_closed_is_forced (evt : esp_evt_t) : bool := evt_forced evt.
Definition esp_evt_conn_data_recv_get_buff (evt : esp_evt_t) : esp_pbuf_p := evt_buff evt.

(** The two callbacks of [main.c], as they are handed to the library. *)
Inductive esp_evt_fn : Type :=
| fn_esp_callback_func
| fn_conn_callback_func.

Inductive esp_conn_type_t : Type :=
| ESP_CONN_TYPE_TCP.

(** C's conversion of an integer to [int] (32 bits, two's complement). *)
Definition cast_int (z : Z) : Z := (z + 2 ^ 31) mod 2 ^ 32 - 2 ^ 31.

(* ================================================================= *)
(** ** The calls [main.c] makes, and programs over them *)

(** One constructor per external function, with the arguments of the C
    call in their order. *)
Inductive extcall : Type :=
| printf (fmt : string) (args : list Z)
| esp_init (evt_func : esp_evt_fn) (blocking : Z)
| connect_to_preferred_access_point (unlimited : Z)
| esp_conn_start (conn : Z) (type : esp_conn_type_t) (host : string) (port : Z)
                 (arg : Z) (evt_func : esp_evt_fn) (blocking : Z)
| osThreadTerminate (thread_id : Z)
| esp_conn_send (conn : esp_conn_p) (data : list byte) (btw : Z) (bw : Z) (blocking : Z)
| esp_conn_close (conn : esp_conn_p) (blocking : Z)
| esp_conn_recved (conn : esp_conn_p) (pbuf : esp_pbuf_p)
| esp_pbuf_length (pbuf : esp_pbuf_p) (tot : Z)
| esp_get_min_at_fw_version
| esp_get_current_at_fw_version.

(** What a call hands back to the caller: its return value, or the value
    it stores through its out-parameter. *)
Definition result (c : extcall) : Type :=
  match c with
  | printf _ _ => unit
  | esp_init _ _ => espr_t
  | connect_to_preferred_access_point _ => espr_t
  | esp_conn_start _ _ _ _ _ _ _ => espr_t
  | osThreadTerminate _ => unit
  | esp_conn_send _ _ _ _ _ => espr_t
  | esp_conn_close _ _ => espr_t
  | esp_conn_recved _ _ => espr_t
  | esp_pbuf_length _ _ => Z
  | esp_get_min_at_fw_version => esp_sw_version_t
  | esp_get_current_at_fw_version => esp_sw_version_t
  end.

Inductive prog (A : Type) : Type :=
| Ret (a : A)
| Call (c : extcall) (k : result c -> prog A).

Arguments Ret {A} a.
Arguments Call {A} c k.

Fixpoint bind {A B : Type} (p : prog A) (f : A -> prog B) : prog B :=
  match p with
  | Ret a => f a
  | Call c k => Call c (fun r => bind (k r) f)
  end.

Definition call (c : extcall) : prog (result c) := Call c Ret.

Declare Scope prog_scope.
Delimit Scope prog_scope with prog.
Notation "x <- p ;; q" := (bind p (fun x => q))
  (at level 61, p at next level, right associativity) : prog_scope.
Notation "p ;; q" := (bind p (fun _ => q))
  (at level 61, right associativity) : prog_scope.
Local Open Scope prog_scope.

(** A call together with the answer it got. *)
Record event : Type := Ev {
  ev_call : extcall;
  ev_result : result ev_call
}.

Definition trace : Type := list event.

(** The environment: it answers a call knowing everything the program has
    called so far.  Each call extends the history, so an environment of this
    kind can answer two calls of one run in any two ways. *)
Definition oracle : Type := trace -> forall c : extcall, result c.

(** [run o h p]: run [p] in environment [o] after history [h]; the value [p]
    returns and the calls it made, oldest first. *)
Fixpoint run {A : Type} (o : oracle) (h : trace) (p : prog A) : A * trace :=
  match p with
  | Ret a => (a, [])
  | Call c k =>
      let r := o h c in
      let '(a, t) := run o (h ++ [Ev c r]) (k r) in
      (a, Ev c r :: t)
  end.

(* ================================================================= *)
(** ** [main.c] *)

(** The two characters every line of the source ends with, backslash-r and
    backslash-n. *)
Definition CRLF : string := String (ascii_of_nat 13) (String (ascii_of_nat 10) EmptyString).

Definition line (s : string) : string := (s ++ CRLF)%string.

(** The text of the request, the four adjacent literals of the source. *)
Definition req_text : string :=
  (line "GET / HTTP/1.1" ++
   line "Host: example.com" ++
   line "Connection: close" ++
   CRLF)%string.

(** [static const uint8_t req_data[]]: the bytes of the literal and the
    terminating NUL the compiler appends. *)
Definition req_data : list byte := list_byte_of_string req_text ++ [x00].

Definition sizeof_req_data : Z := Z.of_nat (List.length req_data).

Definition conn_callback_func (evt : esp_evt_t) : prog espr_t :=
  let conn := esp_conn_get_from_evt evt in
  if conn =? NULL then Ret espERR
  else
    match esp_evt_get_type evt with
    | ESP_EVT_CONN_ACTIVE =>
        call (printf (line "Connection active!") []) ;;
        res <- call (esp_conn_send conn req_data (sizeof_req_data - 1) NULL 0) ;;
        if espr_eqb res espOK then
          call (printf (line "Sending request data to server...") []) ;;
          Ret tt
        else
          call (printf (line "Cannot send request data to server. Closing connection manually...") []) ;;
          call (esp_conn_close conn 0) ;;
          Ret tt
    | ESP_EVT_CONN_CLOSED =>
        if esp_evt_conn_closed_is_forced evt then
          call (printf (line "Connection closed by client!") [])
        else
          call (printf (line "Connection closed by remote side!") [])
    | ESP_EVT_CONN_DATA_SENT =>
        call (printf (line "Data sent successfully...waiting to receive data from remote side...") [])
    | ESP_EVT_CONN_DATA_RECV =>
        let pbuf := esp_evt_conn_data_recv_get_buff evt in
        call (esp_conn_recved conn pbuf) ;;
        len <- call (esp_pbuf_length pbuf 1) ;;
        call (printf (line "Received %d bytes on connection..") [cast_int len])
    | _ => Ret tt
    end ;;
    Ret espOK.

Definition esp_callback_func (evt : esp_evt_t) : prog espr_t :=
  match esp_evt_get_type evt with
  | ESP_EVT_AT_VERSION_NOT_SUPPORTED =>
      v_min <- call esp_get_min_at_fw_version ;;
      v_curr <- call esp_get_current_at_fw_version ;;
      call (printf (line "Current ESP8266 AT version is not supported by library!") []) ;;
      call (printf (line "Minimum required AT version is: %d.%d.%d")
                   [cast_int (major v_min); cast_int (minor v_min); cast_int (patch v_min)]) ;;
      call (printf (line "Current AT version is: %d.%d.%d")
                   [cast_int (major v_curr); cast_int (minor v_curr); cast_int (patch v_curr)])
  | ESP_EVT_INIT_FINISH =>
      call (printf (line "Library initialized!") [])
  | ESP_EVT_RESET_FINISH =>
      call (printf (line "Device reset sequence finished!") [])
  | ESP_EVT_RESET =>
      call (printf (line "Device reset detected!") [])
  | _ => Ret tt
  end ;;
  Ret espOK.

Definition init_thread : prog unit :=
  r <- call (esp_init fn_esp_callback_func 1) ;;
  (if negb (espr_eqb r espOK) then
     call (printf (line "Cannot initialize ESP-AT Library") [])
   else Ret tt) ;;
  call (connect_to_preferred_access_point 1) ;;
  res <- call (esp_conn_start NULL ESP_CONN_TYPE_TCP "example.com" 80 NULL fn_conn_callback_func 0) ;;
  (if espr_eqb res espOK then
     call (printf (line "Connection to example.com started...") [])
   else
     call (printf (line "Cannot start connection to example.com!") [])) ;;
  call (osThreadTerminate NULL).

(* ================================================================= *)
(** ** Delivery of events, and what is read off a trace *)

(** Modelled from the spec: the transport (not among the sources) delivers the
    events one at a time, in order, each to one invocation of the callback
    [f] that runs to its return before the next event is delivered.  The
    result is the list of values the invocations returned and the calls they
    made, in order. *)
Fixpoint deliver (f : esp_evt_t -> prog espr_t) (o : oracle) (h : trace)
    (evts : list esp_evt_t) : list espr_t * trace :=
  match evts with
  | [] => ([], [])
  | evt :: rest =>
      let '(r, t) := run o h (f evt) in
      let '(rs, ts) := deliver f o (h ++ t) rest in
      (r :: rs, t ++ ts)
  end.

Definition calls (t : trace) : list extcall := map ev_call t.

(** The send requests of a trace: handle, buffer and length. *)
Definition send_of (x : extcall) : option (esp_conn_p * list byte * Z) :=
  match x with
  | esp_conn_send conn data btw _ _ => Some (conn, data, btw)
  | _ => None
  end.

(** The acknowledgements of a trace: handle and buffer. *)
Definition recved_of (x : extcall) : option (esp_conn_p * esp_pbuf_p) :=
  match x with
  | esp_conn_recved conn pbuf => Some (conn, pbuf)
  | _ => None
  end.

Fixpoint pick {A B : Type} (f : A -> option B) (l : list A) : list B :=
  match l with
  | [] => []
  | a :: l' =>
      match f a with
      | Some b => b :: pick f l'
      | None => pick f l'
      end
  end.

Definition sends (t : trace) : list (esp_conn_p * list byte * Z) := pick send_of (calls t).
Definition recveds (t : trace) : list (esp_conn_p * esp_pbuf_p) := pick recved_of (calls t).

Definition is_send_on (c : esp_conn_p) (x : extcall) : bool :=
  match x with
  | esp_conn_send conn _ _ _ _ => conn =? c
  | _ => false
  end.

Definition is_close_on (c : esp_conn_p) (x : extcall) : bool :=
  match x with
  | esp_conn_close conn _ => conn =? c
  | _ => false
  end.

(** A send request on [c] that the transport did not accept. *)
Definition is_rejected_send_on (c : esp_conn_p) (e : event) : bool :=
  match e with
  | Ev x r =>
      match x return result x -> bool with
      | esp_conn_send conn _ _ _ _ => fun res => (conn =? c) && negb (espr_eqb res espOK)
      | _ => fun _ => false
      end r
  end.

(** A request to the modem transport or to the station manager: every call
    but the console output, the two version queries, the length of a
    buffer and the end of the task. *)
Definition is_request (x : extcall) : bool :=
  match x with
  | esp_init _ _ => true
  | connect_to_preferred_access_point _ => true
  | esp_conn_start _ _ _ _ _ _ _ => true
  | esp_conn_send _ _ _ _ _ => true
  | esp_conn_close _ _ => true
  | esp_conn_recved _ _ => true
  | _ => false
  end.

(** A call that names the handle [c]. *)
Definition is_on (c : esp_conn_p) (x : extcall) : bool :=
  match x with
  | esp_conn_send conn _ _ _ _ => conn =? c
  | esp_conn_close conn _ => conn =? c
  | esp_conn_recved conn _ => conn =? c
  | _ => false
  end.

Definition count {A : Type} (f : A -> bool) (l : list A) : nat := List.length (filter f l).

(** The events of a sequence that report the handle [c] active. *)
Definition is_active_on (c : esp_conn_p) (evt : esp_evt_t) : bool :=
  match evt_type evt with
  | ESP_EVT_CONN_ACTIVE => evt_conn evt =? c
  | _ => false
  end.

(** The buffer a data-received event hands over on a handle. *)
Definition received_of (evt : esp_evt_t) : option (esp_conn_p * esp_pbuf_p) :=
  match evt_type evt with
  | ESP_EVT_CONN_DATA_RECV =>
      if evt_conn evt =? NULL then None else Some (evt_conn evt, evt_buff evt)
  | _ => None
  end.

(** The categories each callback has a case for. *)
Definition conn_recognized (ty : esp_evt_type_t) : bool :=
  match ty with
  | ESP_EVT_CONN_ACTIVE | ESP_EVT_CONN_CLOSED
  | ESP_EVT_CONN_DATA_SENT | ESP_EVT_CONN_DATA_RECV => true
  | _ => false
  end.

Definition esp_recognized (ty : esp_evt_type_t) : bool :=
  match ty with
  | ESP_EVT_AT_VERSION_NOT_SUPPORTED | ESP_EVT_INIT_FINISH
  | ESP_EVT_RESET_FINISH | ESP_EVT_RESET => true
  | _ => false
  end.

(** Environments used to run the code on concrete inputs: every request is
    answered [res], every buffer has [len] bytes, the firmware versions are
    [v_min] and [v_curr]. *)
Definition answer (res : espr_t) (len : Z) (v_min v_curr : esp_sw_version_t) : oracle :=
  fun _ c =>
    match c return result c with
    | printf _ _ => tt
    | esp_init _ _ => res
    | connect_to_preferred_access_point _ => res
    | esp_conn_start _ _ _ _ _ _ _ => res
    | osThreadTerminate _ => tt
    | esp_conn_send _ _ _ _ _ => res
    | esp_conn_close _ _ => res
    | esp_conn_recved _ _ => res
    | esp_pbuf_length _ _ => len
    | esp_get_min_at_fw_version => v_min
    | esp_get_current_at_fw_version => v_curr
    end.

Definition accepting : oracle := answer espOK 37 (mk_version 2 0 0) (mk_version 1 5 0).
Definition rejecting : oracle := answer espERR 37 (mk_version 2 0 0) (mk_version 1 5 0).

(** The calls of a connection callback that cannot suspend the thread that
    delivers the events: the console, the acknowledgement, the length of a
    buffer, and a send or a close requested in non-blocking mode (blocking
    flag 0, and for a send no place to wait for the count of bytes
    written). *)
Definition is_nonblocking_conn_call (x : extcall) : bool :=
  match x with
  | printf _ _ => true
  | esp_conn_send _ _ _ bw blocking => (bw =? NULL) && (blocking =? 0)
  | esp_conn_close _ blocking => blocking =? 0
  | esp_conn_recved _ _ => true
  | esp_pbuf_length _ _ => true
  | _ => false
  end.

Definition is_terminate (x : extcall) : bool :=
  match x with
  | osThreadTerminate _ => true
  | _ => false
  end.

(* ================================================================= *)
(** ** Board bring-up: [main], [LL_Init], [SystemClock_Config],
       [USART_Printf_Init] and the character handler of [printf] *)

(** The names [main.c] takes from the device and driver headers: register
    field values, peripheral addresses, interrupt numbers, one CMSIS-RTOS
    priority.  The headers are not among the sources, so the numbers behind
    the names are a parameter [value] of everything below. *)
Inductive board_const : Type :=
| LL_APB2_GRP1_PERIPH_SYSCFG | LL_APB1_GRP1_PERIPH_PWR | LL_APB1_GRP1_PERIPH_USART2
| LL_AHB2_GRP1_PERIPH_GPIOA | LL_AHB2_GRP1_PERIPH_GPIOC
| NVIC_PRIORITYGROUP_4
| MemoryManagement_IRQn | BusFault_IRQn | UsageFault_IRQn | SVCall_IRQn
| DebugMonitor_IRQn | PendSV_IRQn | SysTick_IRQn
| LL_FLASH_LATENCY_4 | LL_PWR_REGU_VOLTAGE_SCALE1 | LL_RCC_MSIRANGE_6
| LL_RCC_PLLSOURCE_MSI | LL_RCC_PLLM_DIV_1 | LL_RCC_PLLR_DIV_2
| LL_RCC_SYS_CLKSOURCE_PLL | LL_RCC_SYS_CLKSOURCE_STATUS_PLL
| LL_RCC_SYSCLK_DIV_1 | LL_RCC_APB1_DIV_1 | LL_RCC_APB2_DIV_1
| LL_SYSTICK_CLKSOURCE_HCLK
| LL_GPIO_MODE_ALTERNATE | LL_GPIO_SPEED_FREQ_VERY_HIGH | LL_GPIO_OUTPUT_PUSHPULL
| LL_GPIO_PULL_NO | LL_GPIO_AF_7 | LL_GPIO_PIN_2 | LL_GPIO_PIN_6
| GPIOA | GPIOD | USART2
| LL_USART_DATAWIDTH_8B | LL_USART_STOPBITS_1 | LL_USART_PARITY_NONE
| LL_USART_DIRECTION_TX_RX | LL_USART_HWCONTROL_NONE | LL_USART_OVERSAMPLING_16
| osPriorityNormal.

(** The fields of the two driver structures that [USART_Printf_Init] fills
    in, every one of them before the structure is handed over. *)
Record LL_GPIO_InitTypeDef : Type := mk_gpio_init {
  Pin : Z;
  Mode : Z;
  Speed : Z;
  OutputType : Z;
  Pull : Z;
  Alternate : Z
}.

Record LL_USART_InitTypeDef : Type := mk_usart_init {
  BaudRate : Z;
  DataWidth : Z;
  StopBits : Z;
  Parity : Z;
  TransferDirection : Z;
  HardwareFlowControl : Z;
  OverSampling : Z
}.

(** [osThreadDef (init_thread, init_thread, osPriorityNormal, 0, 512)]. *)
Inductive os_pthread : Type :=
| fn_init_thread.

Record osThreadDef_t : Type := mk_thread_def {
  pthread : os_pthread;
  tpriority : Z;
  instances : Z;
  stacksize : Z
}.

(** The calls of the bring-up code, with the arguments of the C call in
    their order; [app_call] is a call the application code makes too. *)
Inductive hwcall : Type :=
| app_call (c : extcall)
| LL_APB2_GRP1_EnableClock (periphs : Z)
| LL_APB1_GRP1_EnableClock (periphs : Z)
| LL_AHB2_GRP1_EnableClock (periphs : Z)
| NVIC_SetPriorityGrouping (priority_group : Z)
| NVIC_GetPriorityGrouping
| NVIC_EncodePriority (priority_group preempt sub : Z)
| NVIC_SetPriority (irqn priority : Z)
| LL_FLASH_SetLatency (latency : Z)
| LL_FLASH_GetLatency
| LL_PWR_SetRegulVoltageScaling (scaling : Z)
| LL_RCC_MSI_Enable
| LL_RCC_MSI_IsReady
| LL_RCC_MSI_EnableRangeSelection
| LL_RCC_MSI_SetRange (range : Z)
| LL_RCC_MSI_SetCalibTrimming (trim : Z)
| LL_RCC_PLL_ConfigDomain_SYS (source pllm plln pllr : Z)
| LL_RCC_PLL_EnableDomain_SYS
| LL_RCC_PLL_Enable
| LL_RCC_PLL_IsReady
| LL_RCC_SetSysClkSource (source : Z)
| LL_RCC_GetSysClkSource
| LL_RCC_SetAHBPrescaler (prescaler : Z)
| LL_RCC_SetAPB1Prescaler (prescaler : Z)
| LL_RCC_SetAPB2Prescaler (prescaler : Z)
| LL_Init1msTick (hclk : Z)
| LL_SYSTICK_SetClkSource (source : Z)
| LL_SetSystemCoreClock (hclk : Z)
| LL_SYSTICK_EnableIT
| LL_GPIO_Init (gpio : Z) (init : LL_GPIO_InitTypeDef)
| LL_USART_Init (usart : Z) (init : LL_USART_InitTypeDef)
| LL_USART_ConfigAsyncMode (usart : Z)
| LL_USART_Enable (usart : Z)
| LL_USART_TransmitData8 (usart : Z) (data : Z)
| LL_USART_IsActiveFlag_TXE (usart : Z)
| osThreadCreate (thread_def : osThreadDef_t) (argument : Z)
| osKernelStart.

Definition hwresult (c : hwcall) : Type :=
  match c with
  | app_call x => result x
  | NVIC_GetPriorityGrouping => Z
  | NVIC_EncodePriority _ _ _ => Z
  | LL_FLASH_GetLatency => Z
  | LL_RCC_MSI_IsReady => Z
  | LL_RCC_PLL_IsReady => Z
  | LL_RCC_GetSysClkSource => Z
  | LL_GPIO_Init _ _ => Z
  | LL_USART_Init _ _ => Z
  | LL_USART_IsActiveFlag_TXE _ => Z
  | osThreadCreate _ _ => Z
  | osKernelStart => Z
  | _ => unit
  end.

(** Programs over these calls.  The loops of the bring-up code wait for the
    hardware and have no bound of their own; they are unrolled [fuel] times,
    and [HStuck] is a loop that has not ended when the fuel is spent. *)
Inductive hprog (A : Type) : Type :=
| HRet (a : A)
| HCall (c : hwcall) (k : hwresult c -> hprog A)
| HStuck.

Arguments HRet {A} a.
Arguments HCall {A} c k.
Arguments HStuck {A}.

Fixpoint hbind {A B : Type} (p : hprog A) (f : A -> hprog B) : hprog B :=
  match p with
  | HRet a => f a
  | HCall c k => HCall c (fun r => hbind (k r) f)
  | HStuck => HStuck
  end.

Definition hcall (c : hwcall) : hprog (hwresult c) := HCall c HRet.

Declare Scope hprog_scope.
Delimit Scope hprog_scope with hprog.
Notation "x <- p ;; q" := (hbind p (fun x => q))
  (at level 61, p at next level, right associativity) : hprog_scope.
Notation "p ;; q" := (hbind p (fun _ => q))
  (at level 61, right associativity) : hprog_scope.

Record hevent : Type := HEv {
  hev_call : hwcall;
  hev_result : hwresult hev_call
}.

Definition htrace : Type := list hevent.

Definition horacle : Type := htrace -> forall c : hwcall, hwresult c.

(** [hrun o h p]: the value [p] returns, [None] when a loop of [p] has not
    ended within its fuel, and the calls made. *)
Fixpoint hrun {A : Type} (o : horacle) (h : htrace) (p : hprog A) : option A * htrace :=
  match p with
  | HRet a => (Some a, [])
  | HCall c k =>
      let r := o h c in
      let '(a, t) := hrun o (h ++ [HEv c r]) (k r) in
      (a, HEv c r :: t)
  | HStuck => (None, [])
  end.

Definition hcalls (t : htrace) : list hwcall := map hev_call t.

(** [while (1) { }] *)
Fixpoint forever {A : Type} (fuel : nat) : hprog A :=
  match fuel with
  | O => HStuck
  | S n => forever n
  end.

(** [while (busy (c ())) { }]: the call [c] is made again as long as its
    answer is [busy]. *)
Fixpoint while_busy (fuel : nat) (c : hwcall) (busy : hwresult c -> bool) : hprog unit :=
  match fuel with
  | O => HStuck
  | S n => HCall c (fun r => if busy r then while_busy n c busy else HRet tt)
  end.

Section Board.

Variable value : board_const -> Z.

Local Open Scope hprog_scope.

(** [NVIC_SetPriority (irqn, NVIC_EncodePriority (NVIC_GetPriorityGrouping (), 0, 0))] *)
Definition set_priority_0_0 (irqn : board_const) : hprog unit :=
  g <- hcall NVIC_GetPriorityGrouping ;;
  p <- hcall (NVIC_EncodePriority g 0 0) ;;
  hcall (NVIC_SetPriority (value irqn) p).

Definition LL_Init : hprog unit :=
  hcall (LL_APB2_GRP1_EnableClock (value LL_APB2_GRP1_PERIPH_SYSCFG)) ;;
  hcall (LL_APB1_GRP1_EnableClock (value LL_APB1_GRP1_PERIPH_PWR)) ;;
  hcall (NVIC_SetPriorityGrouping (value NVIC_PRIORITYGROUP_4)) ;;
  set_priority_0_0 MemoryManagement_IRQn ;;
  set_priority_0_0 BusFault_IRQn ;;
  set_priority_0_0 UsageFault_IRQn ;;
  set_priority_0_0 SVCall_IRQn ;;
  set_priority_0_0 DebugMonitor_IRQn ;;
  set_priority_0_0 PendSV_IRQn ;;
  set_priority_0_0 SysTick_IRQn.

Definition SystemClock_Config (fuel : nat) : hprog unit :=
  hcall (LL_FLASH_SetLatency (value LL_FLASH_LATENCY_4)) ;;
  latency <- hcall LL_FLASH_GetLatency ;;
  (if negb (latency =? value LL_FLASH_LATENCY_4) then forever fuel else HRet tt) ;;
  hcall (LL_PWR_SetRegulVoltageScaling (value LL_PWR_REGU_VOLTAGE_SCALE1)) ;;
  hcall LL_RCC_MSI_Enable ;;
  (* Wait till MSI is ready *)
  while_busy fuel LL_RCC_MSI_IsReady (fun r => negb (r =? 1)) ;;
  hcall LL_RCC_MSI_EnableRangeSelection ;;
  hcall (LL_RCC_MSI_SetRange (value LL_RCC_MSIRANGE_6)) ;;
  hcall (LL_RCC_MSI_SetCalibTrimming 0) ;;
  hcall (LL_RCC_PLL_ConfigDomain_SYS (value LL_RCC_PLLSOURCE_MSI) (value LL_RCC_PLLM_DIV_1) 40
           (value LL_RCC_PLLR_DIV_2)) ;;
  hcall LL_RCC_PLL_EnableDomain_SYS ;;
  hcall LL_RCC_PLL_Enable ;;
  (* Wait till PLL is ready *)
  while_busy fuel LL_RCC_PLL_IsReady (fun r => negb (r =? 1)) ;;
  hcall (LL_RCC_SetSysClkSource (value LL_RCC_SYS_CLKSOURCE_PLL)) ;;
  (* Wait till System clock is ready *)
  while_busy fuel LL_RCC_GetSysClkSource
    (fun r => negb (r =? value LL_RCC_SYS_CLKSOURCE_STATUS_PLL)) ;;
  hcall (LL_RCC_SetAHBPrescaler (value LL_RCC_SYSCLK_DIV_1)) ;;
  hcall (LL_RCC_SetAPB1Prescaler (value LL_RCC_APB1_DIV_1)) ;;
  hcall (LL_RCC_SetAPB2Prescaler (value LL_RCC_APB2_DIV_1)) ;;
  hcall (LL_Init1msTick 80000000) ;;
  hcall (LL_SYSTICK_SetClkSource (value LL_SYSTICK_CLKSOURCE_HCLK)) ;;
  hcall (LL_SetSystemCoreClock 80000000) ;;
  (* SysTick_IRQn interrupt configuration *)
  set_priority_0_0 SysTick_IRQn ;;
  hcall LL_SYSTICK_EnableIT.

Definition USART_Printf_Init : hprog unit :=
  (* Peripheral clock enable *)
  hcall (LL_APB1_GRP1_EnableClock (value LL_APB1_GRP1_PERIPH_USART2)) ;;
  hcall (LL_AHB2_GRP1_EnableClock (value LL_AHB2_GRP1_PERIPH_GPIOA)) ;;
  hcall (LL_AHB2_GRP1_EnableClock (value LL_AHB2_GRP1_PERIPH_GPIOC)) ;;
  let GPIO_InitStruct :=
    {| Pin := value LL_GPIO_PIN_2;
       Mode := value LL_GPIO_MODE_ALTERNATE;
       Speed := value LL_GPIO_SPEED_FREQ_VERY_HIGH;
       OutputType := value LL_GPIO_OUTPUT_PUSHPULL;
       Pull := value LL_GPIO_PULL_NO;
       Alternate := value LL_GPIO_AF_7 |} in
  hcall (LL_GPIO_Init (value GPIOA) GPIO_InitStruct) ;;
  let GPIO_InitStruct :=
    {| Pin := value LL_GPIO_PIN_6;
       Mode := Mode GPIO_InitStruct;
       Speed := Speed GPIO_InitStruct;
       OutputType := OutputType GPIO_InitStruct;
       Pull := Pull GPIO_InitStruct;
       Alternate := Alternate GPIO_InitStruct |} in
  hcall (LL_GPIO_Init (value GPIOD) GPIO_InitStruct) ;;
  let USART_InitStruct :=
    {| BaudRate := 921600;
       DataWidth := value LL_USART_DATAWIDTH_8B;
       StopBits := value LL_USART_STOPBITS_1;
       Parity := value LL_USART_PARITY_NONE;
       TransferDirection := value LL_USART_DIRECTION_TX_RX;
       HardwareFlowControl := value LL_USART_HWCONTROL_NONE;
       OverSampling := value LL_USART_OVERSAMPLING_16 |} in
  hcall (LL_USART_Init (value USART2) USART_InitStruct) ;;
  hcall (LL_USART_ConfigAsyncMode (value USART2)) ;;  (* Configure USART in async mode *)
  hcall (LL_USART_Enable (value USART2)).             (* Enable USART *)

(** [__io_putchar] (GCC) or [fputc] (other compilers): the body is the
    same.  [(uint8_t)ch] is [ch] modulo 256. *)
Definition __io_putchar (fuel : nat) (ch : Z) : hprog Z :=
  hcall (LL_USART_TransmitData8 (value USART2) (ch mod 256)) ;;  (* Transmit data *)
  while_busy fuel (LL_USART_IsActiveFlag_TXE (value USART2)) (fun r => r =? 0) ;;
  HRet ch.

Definition os_thread_def_init_thread : osThreadDef_t :=
  {| pthread := fn_init_thread;
     tpriority := value osPriorityNormal;
     instances := 0;
     stacksize := 512 |}.

Definition main (fuel : nat) : hprog Z :=
  LL_Init ;;
  SystemClock_Config fuel ;;
  USART_Printf_Init ;;
  hcall (app_call (printf (line "Application running on STM32L496G-Discovery!") [])) ;;
  hcall (osThreadCreate os_thread_def_init_thread NULL) ;;  (* Create init thread *)
  hcall osKernelStart ;;                                     (* Start kernel *)
  forever fuel.

End Board.

(** What is read off a trace of the bring-up code. *)
Definition is_poll_ready (c : hwcall) (ready : Z) (e : hevent) : bool :=
  match e with
  | HEv x r =>
      match x return hwresult x -> bool with
      | LL_FLASH_GetLatency =>
          fun v => match c with LL_FLASH_GetLatency => v =? ready | _ => false end
      | LL_RCC_MSI_IsReady =>
          fun v => match c with LL_RCC_MSI_IsReady => v =? ready | _ => false end
      | LL_RCC_PLL_IsReady =>
          fun v => match c with LL_RCC_PLL_IsReady => v =? ready | _ => false end
      | LL_RCC_GetSysClkSource =>
          fun v => match c with LL_RCC_GetSysClkSource => v =? ready | _ => false end
      | _ => fun _ => false
      end r
  end.

Definition is_call (f : hwcall -> bool) (e : hevent) : bool := f (hev_call e).

(** [never_before first then_ t]: in [t] no event [then_] comes before the
    first event [first]. *)
Fixpoint never_before (first then_ : hevent -> bool) (t : htrace) : bool :=
  match t with
  | [] => true
  | e :: t' => if first e then true else negb (then_ e) && never_before first then_ t'
  end.

(** The first [n] polls of [c] after the history [h], with the answers the
    environment [o] gives them. *)
Fixpoint polls (o : horacle) (h : htrace) (c : hwcall) (n : nat) : htrace :=
  match n with
  | O => []
  | S n' => HEv c (o h c) :: polls o (h ++ [HEv c (o h c)]) c n'
  end.

(** [only P p]: every call [p] can make satisfies [P]. *)
Inductive only (P : hwcall -> bool) {A : Type} : hprog A -> Prop :=
| only_ret (a : A) : only P (HRet a)
| only_stuck : only P HStuck
| only_call (c : hwcall) (k : hwresult c -> hprog A) :
    P c = true -> (forall r, only P (k r)) -> only P (HCall c k).

(** [guarded first g p]: on every path of [p], a call that satisfies [g]
    comes after an event that satisfies [first]. *)
Inductive guarded (first : hevent -> bool) (g : hwcall -> bool) {A : Type} :
    hprog A -> Prop :=
| guarded_ret (a : A) : guarded first g (HRet a)
| guarded_stuck : guarded first g HStuck
| guarded_call (c : hwcall) (k : hwresult c -> hprog A) :
    (g c = true -> forall r, first (HEv c r) = true) ->
    (forall r, first (HEv c r) = false -> guarded first g (k r)) ->
    guarded first g (HCall c k).

(** [loopfree p]: on no path does [p] wait in a loop. *)
Fixpoint loopfree {A : Type} (p : hprog A) : Prop :=
  match p with
  | HRet _ => True
  | HCall c k => forall r, loopfree (k r)
  | HStuck => False
  end.

Definition is_flash_latency (x : hwcall) : bool :=
  match x with LL_FLASH_SetLatency _ | LL_FLASH_GetLatency => true | _ => false end.

Definition is_msi_poll (x : hwcall) : bool :=
  match x with LL_RCC_MSI_IsReady => true | _ => false end.

Definition is_pll_poll (x : hwcall) : bool :=
  match x with LL_RCC_PLL_IsReady => true | _ => false end.

Definition is_sysclk_poll (x : hwcall) : bool :=
  match x with LL_RCC_GetSysClkSource => true | _ => false end.

(** The calls between the wait for the MSI oscillator and the wait for the
    PLL: the MSI range and the set-up and start of the PLL. *)
Definition is_after_msi_ready (x : hwcall) : bool :=
  match x with
  | LL_RCC_MSI_EnableRangeSelection | LL_RCC_MSI_SetRange _ | LL_RCC_MSI_SetCalibTrimming _
  | LL_RCC_PLL_ConfigDomain_SYS _ _ _ _ | LL_RCC_PLL_EnableDomain_SYS
  | LL_RCC_PLL_Enable => true
  | _ => false
  end.

Definition is_set_sysclk_source (x : hwcall) : bool :=
  match x with LL_RCC_SetSysClkSource _ => true | _ => false end.

(** The calls that follow the last wait of [SystemClock_Config]. *)
Definition is_after_clock_switch (x : hwcall) : bool :=
  match x with
  | LL_RCC_SetAHBPrescaler _ | LL_RCC_SetAPB1Prescaler _ | LL_RCC_SetAPB2Prescaler _
  | LL_Init1msTick _ | LL_SYSTICK_SetClkSource _ | LL_SetSystemCoreClock _
  | LL_SYSTICK_EnableIT => true
  | _ => false
  end.

(** The calls of the three bring-up functions: everything but the console,
    the kernel and the transmitter. *)
Definition is_bring_up (x : hwcall) : bool :=
  match x with
  | app_call _ | osThreadCreate _ _ | osKernelStart
  | LL_USART_TransmitData8 _ _ | LL_USART_IsActiveFlag_TXE _ => false
  | _ => true
  end.

(** Hardware for concrete runs: the flash latency reads back as written,
    the oscillators and the clock switch are ready at the first poll, the
    transmitter is empty at the poll number [txe_after] (counted from 0). *)
Definition stm32_value (m : board_const) : Z :=
  match m with
  | LL_FLASH_LATENCY_4 => 4
  | LL_RCC_SYS_CLKSOURCE_STATUS_PLL => 12
  | USART2 => 1073759232
  | _ => 0
  end.

Definition count_txe_polls (t : htrace) : nat :=
  List.length (filter (fun e => match hev_call e with
                                | LL_USART_IsActiveFlag_TXE _ => true
                                | _ => false
                                end) t).

Definition board (latency : Z) (txe_after : nat) : horacle :=
  fun h c =>
    match c return hwresult c with
    | app_call x => accepting [] x
    | NVIC_GetPriorityGrouping => 3
    | NVIC_EncodePriority _ _ _ => 0
    | LL_FLASH_GetLatency => latency
    | LL_RCC_MSI_IsReady => 1
    | LL_RCC_PLL_IsReady => 1
    | LL_RCC_GetSysClkSource => 12
    | LL_GPIO_Init _ _ => 0
    | LL_USART_Init _ _ => 0
    | LL_USART_IsActiveFlag_TXE _ => if Nat.leb txe_after (count_txe_polls h) then 1 else 0
    | osThreadCreate _ _ => 536870912
    | osKernelStart => 0
    | _ => tt
    end.

(* ================================================================= *)
(** ** Running programs: general facts *)

Section Run.

Variable o : oracle.

(** [run] of a sequence is the sequence of the runs, the second one
    starting from the history the first one leaves. *)
Lemma run_bind {A B : Type} (p : prog A) (f : A -> prog B) :
  forall h,
    run o h (bind p f) =
    (fst (run o (h ++ snd (run o h p)) (f (fst (run o h p)))),
     snd (run o h p) ++ snd (run o (h ++ snd (run o h p)) (f (fst (run o h p))))).
Proof.
  induction p as [a | c k IH]; intros h; simpl.
  - rewrite app_nil_r. destruct (run o h (f a)); reflexivity.
  - rewrite IH. destruct (run o (h ++ [Ev c (o h c)]) (k (o h c))) as [a t].
    simpl. rewrite <- app_assoc. reflexivity.
Qed.

Lemma run_call (h : trace) (c : extcall) :
  run o h (call c) = (o h c, [Ev c (o h c)]).
Proof. reflexivity. Qed.

Variable f : esp_evt_t -> prog espr_t.

Lemma deliver_nil (h : trace) : deliver f o h [] = ([], []).
Proof. reflexivity. Qed.

Lemma deliver_cons (h : trace) (evt : esp_evt_t) (rest : list esp_evt_t) :
  deliver f o h (evt :: rest) =
  (fst (run o h (f evt)) :: fst (deliver f o (h ++ snd (run o h (f evt))) rest),
   snd (run o h (f evt)) ++ snd (deliver f o (h ++ snd (run o h (f evt))) rest)).
Proof.
  simpl. destruct (run o h (f evt)) as [r t]. simpl.
  destruct (deliver f o (h ++ t) rest); reflexivity.
Qed.

(** One return value per event delivered: every invocation returns. *)
Lemma deliver_length (evts : list esp_evt_t) :
  forall h, List.length (fst (deliver f o h evts)) = List.length evts.
Proof.
  induction evts as [| evt rest IH]; intros h.
  - reflexivity.
  - rewrite deliver_cons. simpl. rewrite IH. reflexivity.
Qed.

End Run.

Lemma calls_app (t1 t2 : trace) : calls (t1 ++ t2) = calls t1 ++ calls t2.
Proof. apply map_app. Qed.

Lemma pick_app {A B : Type} (f : A -> option B) (l1 l2 : list A) :
  pick f (l1 ++ l2) = pick f l1 ++ pick f l2.
Proof.
  induction l1 as [| a l1 IH]; simpl.
  - reflexivity.
  - destruct (f a); simpl; rewrite IH; reflexivity.
Qed.

Lemma count_app {A : Type} (f : A -> bool) (l1 l2 : list A) :
  count f (l1 ++ l2) = (count f l1 + count f l2)%nat.
Proof. unfold count. rewrite filter_app, length_app. reflexivity. Qed.

Lemma count_cons {A : Type} (f : A -> bool) (a : A) (l : list A) :
  count f (a :: l) = ((if f a then 1 else 0) + count f l)%nat.
Proof. unfold count. simpl. destruct (f a); reflexivity. Qed.

Lemma sends_app (t1 t2 : trace) : sends (t1 ++ t2) = sends t1 ++ sends t2.
Proof. unfold sends. rewrite calls_app. apply pick_app. Qed.

Lemma recveds_app (t1 t2 : trace) : recveds (t1 ++ t2) = recveds t1 ++ recveds t2.
Proof. unfold recveds. rewrite calls_app. apply pick_app. Qed.

Lemma cast_int_small (z : Z) : - 2 ^ 31 <= z < 2 ^ 31 -> cast_int z = z.
Proof.
  intros Hz. unfold cast_int. rewrite Z.mod_small; lia.
Qed.

(* ================================================================= *)
(** ** The request buffer *)

Lemma sizeof_req_data_eq : sizeof_req_data = 57.
Proof. reflexivity. Qed.

(* ================================================================= *)
(** ** One invocation of [conn_callback_func] *)

(** Case analysis of one invocation: the handle test, the category, and
    the answer to the send request. *)
Ltac conn_cases o h evt :=
  destruct evt as [ty conn forced pbuf];
  unfold conn_callback_func, esp_conn_get_from_evt, esp_evt_get_type,
    esp_evt_conn_closed_is_forced, esp_evt_conn_data_recv_get_buff;
  cbn [evt_type evt_conn evt_forced evt_buff];
  destruct (Z.eqb_spec conn NULL) as [Hnull | Hconn];
  [ | destruct ty; cbn [bind call run fst snd];
      try match goal with
        | |- context [espr_eqb ?r espOK] => destruct (espr_eqb r espOK) eqn:Hres
        end;
      try match goal with
        | |- context [if forced then _ else _] => destruct forced
        end;
      cbn [bind call run fst snd] ].

Section Conn_callback.

Variable o : oracle.
Variable h : trace.

Lemma conn_callback_func_null (evt : esp_evt_t) :
  evt_conn evt = NULL -> run o h (conn_callback_func evt) = (espERR, []).
Proof.
  intros Hn. conn_cases o h evt.
  all: first [reflexivity | cbn in Hn; contradiction].
Qed.

Lemma conn_callback_func_ok (evt : esp_evt_t) :
  evt_conn evt <> NULL -> fst (run o h (conn_callback_func evt)) = espOK.
Proof.
  intros Hn. conn_cases o h evt.
  all: first [reflexivity | cbn in Hn; contradiction].
Qed.

(** The send requests of one invocation: one, on a connection-active
    event that carries a handle, with the request buffer and all of its
    bytes but the terminating NUL. *)
Lemma conn_callback_func_sends (evt : esp_evt_t) :
  sends (snd (run o h (conn_callback_func evt))) =
  if negb (evt_conn evt =? NULL) && is_active_on (evt_conn evt) evt
  then [(evt_conn evt, req_data, sizeof_req_data - 1)] else [].
Proof.
  conn_cases o h evt.
  all: unfold is_active_on; cbn [evt_type evt_conn negb andb].
  all: try rewrite Z.eqb_refl; reflexivity.
Qed.

Lemma conn_callback_func_sends_on (k : esp_conn_p) (evt : esp_evt_t) :
  k <> NULL ->
  count (is_send_on k) (calls (snd (run o h (conn_callback_func evt)))) =
  if is_active_on k evt then 1%nat else 0%nat.
Proof.
  intros Hk. conn_cases o h evt.
  all: unfold is_active_on; cbn [evt_type evt_conn].
  all: try reflexivity.
  - subst conn. destruct ty; try reflexivity.
    destruct (Z.eqb_spec NULL k); [congruence | reflexivity].
  - cbn. destruct (conn =? k); reflexivity.
  - cbn. destruct (conn =? k); reflexivity.
Qed.

(** One close request for each send request that was not accepted. *)
Lemma conn_callback_func_closes_on (k : esp_conn_p) (evt : esp_evt_t) :
  count (is_close_on k) (calls (snd (run o h (conn_callback_func evt)))) =
  count (is_rejected_send_on k) (snd (run o h (conn_callback_func evt))).
Proof.
  conn_cases o h evt.
  all: try reflexivity.
  all: unfold count; cbn [calls map ev_call filter is_close_on is_rejected_send_on].
  all: rewrite Hres; cbn [negb].
  - rewrite andb_false_r. reflexivity.
  - rewrite andb_true_r. destruct (conn =? k); reflexivity.
Qed.

(** The acknowledgements of one invocation: the buffer of a data-received
    event that carries a handle, and nothing else. *)
Lemma conn_callback_func_recveds (evt : esp_evt_t) :
  recveds (snd (run o h (conn_callback_func evt))) =
  match received_of evt with
  | Some x => [x]
  | None => []
  end.
Proof.
  conn_cases o h evt.
  all: unfold received_of; cbn [evt_type evt_conn evt_buff].
  all: try reflexivity.
  - subst conn. destruct ty; reflexivity.
  - destruct (Z.eqb_spec conn NULL); [contradiction | reflexivity].
Qed.

End Conn_callback.

(* ================================================================= *)
(** ** Sequences of events delivered to [conn_callback_func] *)

Section Conn_sequence.

Variable o : oracle.

Lemma deliver_sends_on (k : esp_conn_p) (evts : list esp_evt_t) :
  k <> NULL ->
  forall h,
    count (is_send_on k) (calls (snd (deliver conn_callback_func o h evts))) =
    count (is_active_on k) evts.
Proof.
  intros Hk. induction evts as [| evt rest IH]; intros h.
  - reflexivity.
  - rewrite deliver_cons. cbn [snd].
    rewrite calls_app, count_app, count_cons, IH.
    rewrite conn_callback_func_sends_on by assumption. reflexivity.
Qed.

Lemma deliver_closes_on (k : esp_conn_p) (evts : list esp_evt_t) :
  forall h,
    count (is_close_on k) (calls (snd (deliver conn_callback_func o h evts))) =
    count (is_rejected_send_on k) (snd (deliver conn_callback_func o h evts)).
Proof.
  induction evts as [| evt rest IH]; intros h.
  - reflexivity.
  - rewrite deliver_cons. cbn [snd].
    rewrite calls_app, !count_app, IH, conn_callback_func_closes_on. reflexivity.
Qed.

Lemma deliver_recveds (evts : list esp_evt_t) :
  forall h,
    recveds (snd (deliver conn_callback_func o h evts)) = pick received_of evts.
Proof.
  induction evts as [| evt rest IH]; intros h.
  - reflexivity.
  - rewrite deliver_cons. cbn [snd pick].
    rewrite recveds_app, IH, conn_callback_func_recveds.
    destruct (received_of evt); reflexivity.
Qed.

Lemma deliver_sends (evts : list esp_evt_t) :
  forall h,
    Forall (fun s => snd (fst s) = req_data /\ snd s = sizeof_req_data - 1)
           (sends (snd (deliver conn_callback_func o h evts))).
Proof.
  induction evts as [| evt rest IH]; intros h.
  - constructor.
  - rewrite deliver_cons. cbn [snd].
    rewrite sends_app, conn_callback_func_sends.
    apply Forall_app. split; [ | apply IH].
    destruct (negb (evt_conn evt =? NULL) && is_active_on (evt_conn evt) evt);
      repeat constructor.
Qed.

End Conn_sequence.

(** A send request that was not accepted is a send request. *)
Lemma rejected_sends_le_sends (k : esp_conn_p) (t : trace) :
  (count (is_rejected_send_on k) t <= count (is_send_on k) (calls t))%nat.
Proof.
  induction t as [| e t IH].
  - apply Nat.le_refl.
  - unfold calls. cbn [map]. fold (calls t). rewrite !count_cons.
    destruct e as [x r]. destruct x; cbn [is_rejected_send_on is_send_on ev_call]; try lia.
    destruct (conn =? k); cbn [andb]; [ | lia].
    destruct (negb (espr_eqb r espOK)); lia.
Qed.

(* ================================================================= *)
(** ** C1: a rejected send is followed by one close request *)




(* ================================================================= *)
(** ** C2: received buffers are acknowledged *)

(** A data-received event from which no handle can be extracted: the
    callback returns [espERR] at the handle test and the buffer 9 is not
    acknowledged. *)
Lemma conn_callback_func_no_handle_no_ack :
  run accepting [] (conn_callback_func (mk_evt ESP_EVT_CONN_DATA_RECV NULL false 9)) =
    (espERR, [])
  /\ recveds (snd (run accepting []
        (conn_callback_func (mk_evt ESP_EVT_CONN_DATA_RECV NULL false 9)))) = [].
Proof. split; reflexivity. Qed.

(** C2 (amended): for every data-received event from which a connection
    handle can be extracted, the callback acknowledges the received buffer
    to the transport ([esp_conn_recved] with that handle and that buffer)
    exactly once, as its first call, and returns [espOK]; over any sequence
    of events its acknowledgements are, in order, the buffers of these
    data-received events, one per delivery, so none is acknowledged more
    often than it was received and none that was not received. *)
Theorem conn_data_recv_acknowledged (o : oracle) (h : trace)
    (evt : esp_evt_t) (evts : list esp_evt_t) :
  evt_type evt = ESP_EVT_CONN_DATA_RECV ->
  evt_conn evt <> NULL ->
  fst (run o h (conn_callback_func evt)) = espOK /\
  (exists len : Z,
     calls (snd (run o h (conn_callback_func evt))) =
       [esp_conn_recved (evt_conn evt) (evt_buff evt);
        esp_pbuf_length (evt_buff evt) 1;
        printf (line "Received %d bytes on connection..") [cast_int len]]) /\
  recveds (snd (deliver conn_callback_func o h evts)) = pick received_of evts.
Proof.
  intros Hty Hconn. split; [ | split].
  - apply conn_callback_func_ok. assumption.
  - destruct evt as [ty conn forced pbuf]. cbn in Hty, Hconn. subst ty.
    unfold conn_callback_func, esp_conn_get_from_evt, esp_evt_get_type,
      esp_evt_conn_data_recv_get_buff.
    cbn [evt_type evt_conn evt_buff].
    destruct (Z.eqb_spec conn NULL) as [Hnull | _]; [contradiction | ].
    cbn [bind call run fst snd calls map ev_call].
    eexists. reflexivity.
  - apply deliver_recveds.
Qed.

Lemma conn_data_recv_acknowledged_witness :
  fst (run accepting [] (conn_callback_func (mk_evt ESP_EVT_CONN_DATA_RECV 5 false 9))) = espOK /\
  (exists len : Z,
     calls (snd (run accepting [] (conn_callback_func (mk_evt ESP_EVT_CONN_DATA_RECV 5 false 9)))) =
       [esp_conn_recved 5 9;
        esp_pbuf_length 9 1;
        printf (line "Received %d bytes on connection..") [cast_int len]]) /\
  recveds (snd (deliver conn_callback_func accepting []
     [mk_evt ESP_EVT_CONN_DATA_RECV 5 false 9; mk_evt ESP_EVT_CONN_DATA_RECV NULL false 8;
      mk_evt ESP_EVT_CONN_DATA_SENT 5 false 6; mk_evt ESP_EVT_CONN_DATA_RECV 5 false 7])) =
    [(5, 9); (5, 7)].
Proof.
  apply (conn_data_recv_acknowledged accepting [] (mk_evt ESP_EVT_CONN_DATA_RECV 5 false 9)
           [mk_evt ESP_EVT_CONN_DATA_RECV 5 false 9; mk_evt ESP_EVT_CONN_DATA_RECV NULL false 8;
            mk_evt ESP_EVT_CONN_DATA_SENT 5 false 6; mk_evt ESP_EVT_CONN_DATA_RECV 5 false 7]).
  - reflexivity.
  - discriminate.
Defined.

(* ================================================================= *)
(** ** C3: [init_thread] when [esp_init] fails *)

Lemma espr_eqb_espOK (r : espr_t) : espr_eqb r espOK = true <-> r = espOK.
Proof. destruct r; cbn; split; intros H; congruence. Qed.

Lemma espr_eqb_not_espOK (r : espr_t) : r <> espOK -> espr_eqb r espOK = false.
Proof.
  intros H. destruct (espr_eqb r espOK) eqn:E; [ | reflexivity].
  apply espr_eqb_espOK in E. contradiction.
Qed.




(** When [esp_init] succeeds the sequence is the same without the report. *)
Lemma init_thread_after_init (o : oracle) (h : trace) :
  o h (esp_init fn_esp_callback_func 1) = espOK ->
  exists res : espr_t,
    calls (snd (run o h init_thread)) =
      [esp_init fn_esp_callback_func 1;
       connect_to_preferred_access_point 1;
       esp_conn_start NULL ESP_CONN_TYPE_TCP "example.com" 80 NULL fn_conn_callback_func 0;
       printf (if espr_eqb res espOK
               then line "Connection to example.com started..."
               else line "Cannot start connection to example.com!") [];
       osThreadTerminate NULL].
Proof.
  intros Hok.
  unfold init_thread. cbn [bind call run fst snd].
  rewrite Hok. cbn [espr_eqb negb bind call run fst snd].
  match goal with
  | |- context [espr_eqb ?r espOK] => exists r; destruct (espr_eqb r espOK)
  end; reflexivity.
Qed.

(* ================================================================= *)
(** ** C4: the unsupported-AT-version event *)

(** C4: on an unsupported-AT-version event [esp_callback_func] queries the
    minimum required and the current firmware version, prints the three
    diagnostics with the two triples it was given, makes no other call (no
    request to the transport) and returns [espOK]. *)
Theorem esp_callback_func_version_not_supported (o : oracle) (h : trace) (evt : esp_evt_t) :
  evt_type evt = ESP_EVT_AT_VERSION_NOT_SUPPORTED ->
  let v_min := o h esp_get_min_at_fw_version in
  let v_curr := o (h ++ [Ev esp_get_min_at_fw_version v_min]) esp_get_current_at_fw_version in
  fst (run o h (esp_callback_func evt)) = espOK /\
  calls (snd (run o h (esp_callback_func evt))) =
    [esp_get_min_at_fw_version;
     esp_get_current_at_fw_version;
     printf (line "Current ESP8266 AT version is not supported by library!") [];
     printf (line "Minimum required AT version is: %d.%d.%d")
            [cast_int (major v_min); cast_int (minor v_min); cast_int (patch v_min)];
     printf (line "Current AT version is: %d.%d.%d")
            [cast_int (major v_curr); cast_int (minor v_curr); cast_int (patch v_curr)]] /\
  filter is_request (calls (snd (run o h (esp_callback_func evt)))) = [].
Proof.
  intros Hty v_min v_curr. subst v_min v_curr.
  unfold esp_callback_func, esp_evt_get_type. rewrite Hty.
  cbn [bind call run fst snd]. repeat split.
Qed.

Lemma esp_callback_func_version_not_supported_witness :
  fst (run accepting [] (esp_callback_func (mk_evt ESP_EVT_AT_VERSION_NOT_SUPPORTED NULL false NULL)))
    = espOK /\
  calls (snd (run accepting []
    (esp_callback_func (mk_evt ESP_EVT_AT_VERSION_NOT_SUPPORTED NULL false NULL)))) =
    [esp_get_min_at_fw_version;
     esp_get_current_at_fw_version;
     printf (line "Current ESP8266 AT version is not supported by library!") [];
     printf (line "Minimum required AT version is: %d.%d.%d") [2; 0; 0];
     printf (line "Current AT version is: %d.%d.%d") [1; 5; 0]] /\
  filter is_request (calls (snd (run accepting []
    (esp_callback_func (mk_evt ESP_EVT_AT_VERSION_NOT_SUPPORTED NULL false NULL))))) = [].
Proof.
  apply (esp_callback_func_version_not_supported accepting []
           (mk_evt ESP_EVT_AT_VERSION_NOT_SUPPORTED NULL false NULL)).
  reflexivity.
Defined.

(* ================================================================= *)
(** ** C5: request, response, close by the remote side *)



(* ================================================================= *)
(** ** C6: categories without a case *)

(** An event of a category [conn_callback_func] has no case for, and from
    which no handle can be extracted: the callback returns [espERR]. *)
Lemma conn_callback_func_unrecognized_no_handle :
  conn_recognized (evt_type (mk_evt (ESP_EVT_OTHER 0) NULL false NULL)) = false
  /\ run accepting [] (conn_callback_func (mk_evt (ESP_EVT_OTHER 0) NULL false NULL)) =
       (espERR, []).
Proof. split; reflexivity. Qed.

(** C6 (amended): [esp_callback_func] makes no call and returns [espOK] on
    every event of a category it has no case for; [conn_callback_func] does
    so on every such event from which a connection handle can be extracted,
    and otherwise makes no call and returns [espERR]. *)
Theorem unrecognized_event_is_no_op (o : oracle) (h : trace) (evt : esp_evt_t) :
  (esp_recognized (evt_type evt) = false ->
     run o h (esp_callback_func evt) = (espOK, [])) /\
  (conn_recognized (evt_type evt) = false -> evt_conn evt <> NULL ->
     run o h (conn_callback_func evt) = (espOK, [])) /\
  (conn_recognized (evt_type evt) = false -> evt_conn evt = NULL ->
     run o h (conn_callback_func evt) = (espERR, [])).
Proof.
  split; [ | split].
  - destruct evt as [ty conn forced pbuf]. cbn [evt_type].
    unfold esp_callback_func, esp_evt_get_type. cbn [evt_type].
    destruct ty; cbn [esp_recognized]; intros Hty; try discriminate; reflexivity.
  - intros Hty Hc. conn_cases o h evt.
    all: cbn in Hty, Hc; first [reflexivity | contradiction | discriminate].
  - intros _ Hnull. apply conn_callback_func_null. assumption.
Qed.

Lemma unrecognized_event_is_no_op_witness :
  run accepting [] (esp_callback_func (mk_evt (ESP_EVT_OTHER 0) 5 false NULL)) = (espOK, [])
  /\ run accepting [] (conn_callback_func (mk_evt (ESP_EVT_OTHER 0) 5 false NULL)) = (espOK, [])
  /\ run accepting [] (conn_callback_func (mk_evt ESP_EVT_RESET NULL false NULL)) = (espERR, []).
Proof.
  destruct (unrecognized_event_is_no_op accepting [] (mk_evt (ESP_EVT_OTHER 0) 5 false NULL))
    as [Hesp [Hconn _]].
  destruct (unrecognized_event_is_no_op accepting [] (mk_evt ESP_EVT_RESET NULL false NULL))
    as [_ [_ Hnull]].
  split; [ | split].
  - apply Hesp. reflexivity.
  - apply Hconn; [reflexivity | discriminate].
  - apply Hnull; reflexivity.
Defined.

(* ================================================================= *)
(** ** C7: the connection-closed event *)



(** After the closed event, and as long as the transport delivers no
    event that carries the handle again, no call names the handle. *)
Lemma conn_callback_func_other_handle (o : oracle) (h : trace) (k : esp_conn_p)
    (evt : esp_evt_t) :
  evt_conn evt <> k ->
  count (is_on k) (calls (snd (run o h (conn_callback_func evt)))) = 0%nat.
Proof.
  intros Hk. conn_cases o h evt.
  all: cbn in Hk; unfold count; cbn [calls map ev_call filter is_on].
  all: try reflexivity.
  all: destruct (Z.eqb_spec conn k); [contradiction | reflexivity].
Qed.

Lemma closed_handle_stays_untouched (o : oracle) (k : esp_conn_p) (evts : list esp_evt_t) :
  Forall (fun evt => evt_conn evt <> k) evts ->
  forall h, count (is_on k) (calls (snd (deliver conn_callback_func o h evts))) = 0%nat.
Proof.
  induction 1 as [| evt rest Hevt _ IH]; intros h.
  - reflexivity.
  - rewrite deliver_cons. cbn [snd].
    rewrite calls_app, count_app, IH, conn_callback_func_other_handle by assumption.
    reflexivity.
Qed.

(* ================================================================= *)
(** ** C8: the request buffer is the same in every send *)

Lemma esp_callback_func_sends (o : oracle) (h : trace) (evt : esp_evt_t) :
  sends (snd (run o h (esp_callback_func evt))) = [].
Proof.
  destruct evt as [ty conn forced pbuf].
  unfold esp_callback_func, esp_evt_get_type. cbn [evt_type].
  destruct ty; reflexivity.
Qed.

Lemma init_thread_sends (o : oracle) (h : trace) :
  sends (snd (run o h init_thread)) = [].
Proof.
  unfold init_thread. cbn [bind call run fst snd].
  destruct (espr_eqb (o h (esp_init fn_esp_callback_func 1)) espOK);
    cbn [negb bind call run fst snd].
  all: match goal with
       | |- context [espr_eqb ?r espOK] => destruct (espr_eqb r espOK)
       end; reflexivity.
Qed.


(* ================================================================= *)
(** ** C9: the value [conn_callback_func] returns *)

(** C9: when no handle can be extracted from the event the callback
    returns [espERR] and has made no call; in every other case it returns
    [espOK]. *)
Theorem conn_callback_func_returns (o : oracle) (h : trace) (evt : esp_evt_t) :
  (evt_conn evt = NULL -> run o h (conn_callback_func evt) = (espERR, [])) /\
  (evt_conn evt <> NULL -> fst (run o h (conn_callback_func evt)) = espOK).
Proof.
  split.
  - apply conn_callback_func_null.
  - apply conn_callback_func_ok.
Qed.

Lemma conn_callback_func_returns_witness :
  run accepting [] (conn_callback_func (mk_evt ESP_EVT_CONN_ACTIVE NULL false NULL)) = (espERR, [])
  /\ fst (run rejecting [] (conn_callback_func (mk_evt ESP_EVT_CONN_ACTIVE 5 false NULL))) = espOK.
Proof.
  destruct (conn_callback_func_returns accepting [] (mk_evt ESP_EVT_CONN_ACTIVE NULL false NULL))
    as [Hnull _].
  destruct (conn_callback_func_returns rejecting [] (mk_evt ESP_EVT_CONN_ACTIVE 5 false NULL))
    as [_ Hconn].
  split.
  - apply Hnull. reflexivity.
  - apply Hconn. discriminate.
Defined.

(* ================================================================= *)
(** ** C10: the length of the send request *)

(** C10: on a connection-active event the callback sends [req_data] with
    the length [sizeof req_data - 1]: the 56 bytes of the request text,
    without the NUL that ends the array. *)
Theorem conn_send_length (o : oracle) (h : trace) (evt : esp_evt_t) :
  evt_type evt = ESP_EVT_CONN_ACTIVE ->
  evt_conn evt <> NULL ->
  sends (snd (run o h (conn_callback_func evt))) =
    [(evt_conn evt, req_data, sizeof_req_data - 1)] /\
  sizeof_req_data - 1 = Z.of_nat (String.length req_text) /\
  firstn (Z.to_nat (sizeof_req_data - 1)) req_data = list_byte_of_string req_text /\
  skipn (Z.to_nat (sizeof_req_data - 1)) req_data = [x00].
Proof.
  intros Hty Hconn. split; [ | repeat split].
  rewrite conn_callback_func_sends.
  unfold is_active_on. rewrite Hty, Z.eqb_refl.
  destruct (Z.eqb_spec (evt_conn evt) NULL); [contradiction | reflexivity].
Qed.

Lemma conn_send_length_witness :
  sends (snd (run accepting [] (conn_callback_func (mk_evt ESP_EVT_CONN_ACTIVE 5 false NULL)))) =
    [(5, req_data, 56)] /\
  56 = Z.of_nat (String.length req_text) /\
  firstn 56 req_data = list_byte_of_string req_text /\
  skipn 56 req_data = [x00].
Proof.
  apply (conn_send_length accepting [] (mk_evt ESP_EVT_CONN_ACTIVE 5 false NULL)).
  - reflexivity.
  - discriminate.
Defined.

(* ================================================================= *)
(** ** Further properties of the callbacks and of [init_thread] *)

Lemma deliver_forallb (f : esp_evt_t -> prog espr_t) (o : oracle) (P : extcall -> bool) :
  (forall h evt, forallb P (calls (snd (run o h (f evt)))) = true) ->
  forall evts h, forallb P (calls (snd (deliver f o h evts))) = true.
Proof.
  intros Hone. induction evts as [| evt rest IH]; intros h.
  - reflexivity.
  - rewrite deliver_cons. cbn [snd].
    rewrite calls_app, forallb_app, Hone, IH. reflexivity.
Qed.

Lemma deliver_trace_length (f : esp_evt_t -> prog espr_t) (o : oracle) (n : nat) :
  (forall h evt, (List.length (snd (run o h (f evt))) <= n)%nat) ->
  forall evts h,
    (List.length (snd (deliver f o h evts)) <= n * List.length evts)%nat.
Proof.
  intros Hone. induction evts as [| evt rest IH]; intros h.
  - cbn. lia.
  - rewrite deliver_cons. cbn [snd List.length]. rewrite length_app.
    specialize (Hone h evt). specialize (IH (h ++ snd (run o h (f evt)))).
    lia.
Qed.

(** X1: [conn_callback_func], over every sequence of events and every
    environment: its calls are console output, acknowledgements, buffer
    lengths, and sends and closes requested in non-blocking mode; it never
    calls [esp_init], [esp_conn_start], the station manager or the kernel;
    and an event costs at most four calls. *)
Theorem conn_callback_func_never_blocks (o : oracle) (h : trace) (evts : list esp_evt_t) :
  forallb is_nonblocking_conn_call (calls (snd (deliver conn_callback_func o h evts))) = true /\
  (List.length (snd (deliver conn_callback_func o h evts)) <= 4 * List.length evts)%nat.
Proof.
  split.
  - apply deliver_forallb. intros h' evt. conn_cases o h' evt; reflexivity.
  - apply deliver_trace_length. intros h' evt.
    conn_cases o h' evt; cbn [bind call run fst snd List.length]; lia.
Qed.

(** A call of [conn_callback_func] never names the NULL handle. *)
Lemma conn_callback_func_not_on_null (o : oracle) (h : trace) (evt : esp_evt_t) :
  count (is_on NULL) (calls (snd (run o h (conn_callback_func evt)))) = 0%nat.
Proof.
  conn_cases o h evt.
  all: unfold count; cbn [calls map ev_call filter is_on].
  all: try reflexivity.
  all: destruct (Z.eqb_spec conn NULL); [contradiction | reflexivity].
Qed.

(** X2: Over every sequence of events, a send, close or acknowledgement that
    names the handle [k] was issued for an event of the sequence that
    carries [k], and [k] is not NULL: the callback acts on no handle the
    transport did not hand to it. *)
Theorem conn_callback_func_acts_on_event_handle (o : oracle) (h : trace)
    (evts : list esp_evt_t) (k : esp_conn_p) :
  (0 < count (is_on k) (calls (snd (deliver conn_callback_func o h evts))))%nat ->
  k <> NULL /\ Exists (fun evt => evt_conn evt = k) evts.
Proof.
  revert h. induction evts as [| evt rest IH]; intros h Hpos.
  - cbn in Hpos. lia.
  - rewrite deliver_cons in Hpos. cbn [snd] in Hpos.
    rewrite calls_app, count_app in Hpos.
    destruct (Z.eq_dec (evt_conn evt) k) as [Heq | Hne].
    + split; [ | constructor; exact Heq].
      intros Hnull. subst k.
      destruct (Nat.eq_dec
        (count (is_on (evt_conn evt))
           (calls (snd (deliver conn_callback_func o
              (h ++ snd (run o h (conn_callback_func evt))) rest)))) 0) as [Hz | Hnz].
      * rewrite Hz in Hpos. rewrite Hnull in Hpos.
        rewrite conn_callback_func_not_on_null in Hpos. lia.
      * destruct (IH (h ++ snd (run o h (conn_callback_func evt)))) as [Hk _]; [lia | ].
        contradiction.
    + rewrite conn_callback_func_other_handle in Hpos by assumption.
      destruct (IH _ Hpos) as [Hk Hex]. split; [exact Hk | ].
      apply Exists_cons_tl. exact Hex.
Qed.

Lemma conn_callback_func_acts_on_event_handle_witness :
  5 <> NULL /\
  Exists (fun evt => evt_conn evt = 5)
    [mk_evt ESP_EVT_CONN_DATA_SENT 6 false NULL; mk_evt ESP_EVT_CONN_DATA_RECV 5 false 9].
Proof.
  apply (conn_callback_func_acts_on_event_handle accepting []
           [mk_evt ESP_EVT_CONN_DATA_SENT 6 false NULL; mk_evt ESP_EVT_CONN_DATA_RECV 5 false 9] 5).
  vm_compute. apply le_n.
Defined.

(** X3: Over every sequence of events and for every handle [k]: one send
    request on [k] for each event that reports [k] active, one close request
    on [k] for each send on [k] that was rejected, hence never more close
    requests than sends, and no close request when every send was
    accepted. *)
Theorem conn_callback_func_sends_and_closes (o : oracle) (h : trace)
    (evts : list esp_evt_t) (k : esp_conn_p) :
  k <> NULL ->
  count (is_send_on k) (calls (snd (deliver conn_callback_func o h evts))) =
    count (is_active_on k) evts /\
  count (is_close_on k) (calls (snd (deliver conn_callback_func o h evts))) =
    count (is_rejected_send_on k) (snd (deliver conn_callback_func o h evts)) /\
  (count (is_close_on k) (calls (snd (deliver conn_callback_func o h evts))) <=
     count (is_send_on k) (calls (snd (deliver conn_callback_func o h evts))))%nat.
Proof.
  intros Hk.
  pose proof (deliver_sends_on o k evts Hk h) as Hs.
  pose proof (deliver_closes_on o k evts h) as Hc.
  pose proof (rejected_sends_le_sends k (snd (deliver conn_callback_func o h evts))) as Hle.
  repeat split; [exact Hs | exact Hc | lia].
Qed.

Lemma conn_callback_func_sends_and_closes_witness :
  count (is_send_on 5) (calls (snd (deliver conn_callback_func rejecting []
     [mk_evt ESP_EVT_CONN_ACTIVE 5 false NULL; mk_evt ESP_EVT_CONN_ACTIVE 6 false NULL;
      mk_evt ESP_EVT_CONN_ACTIVE 5 false NULL]))) = 2%nat.
Proof.
  apply (conn_callback_func_sends_and_closes rejecting []
     [mk_evt ESP_EVT_CONN_ACTIVE 5 false NULL; mk_evt ESP_EVT_CONN_ACTIVE 6 false NULL;
      mk_evt ESP_EVT_CONN_ACTIVE 5 false NULL] 5).
  discriminate.
Defined.

(** X4: [init_thread], in every environment: whatever [esp_init], the station
    manager and [esp_conn_start] answer, the task makes the same three
    requests in the same order (the stack is initialised in blocking mode
    with [esp_callback_func], the access point is joined, one TCP connection
    to example.com:80 is started in non-blocking mode with
    [conn_callback_func]), and its last call, made once, ends the task. *)
Theorem init_thread_requests (o : oracle) (h : trace) :
  filter is_request (calls (snd (run o h init_thread))) =
    [esp_init fn_esp_callback_func 1;
     connect_to_preferred_access_point 1;
     esp_conn_start NULL ESP_CONN_TYPE_TCP "example.com" 80 NULL fn_conn_callback_func 0] /\
  last (calls (snd (run o h init_thread))) (printf EmptyString []) = osThreadTerminate NULL /\
  count is_terminate (calls (snd (run o h init_thread))) = 1%nat.
Proof.
  unfold init_thread. cbn [bind call run fst snd].
  destruct (espr_eqb (o h (esp_init fn_esp_callback_func 1)) espOK);
    cbn [negb bind call run fst snd].
  all: match goal with
       | |- context [espr_eqb ?r espOK] => destruct (espr_eqb r espOK)
       end; repeat split.
Qed.

(* ================================================================= *)
(** ** Running the bring-up code: general facts *)

Section Hrun.

Variable o : horacle.

Lemma hrun_bind {A B : Type} (p : hprog A) (f : A -> hprog B) :
  forall h,
    hrun o h (hbind p f) =
    match fst (hrun o h p) with
    | Some a =>
        (fst (hrun o (h ++ snd (hrun o h p)) (f a)),
         snd (hrun o h p) ++ snd (hrun o (h ++ snd (hrun o h p)) (f a)))
    | None => (None, snd (hrun o h p))
    end.
Proof.
  induction p as [a | c k IH | ]; intros h; cbn [hbind hrun fst snd].
  - rewrite app_nil_r. destruct (hrun o h (f a)); reflexivity.
  - rewrite IH. destruct (hrun o (h ++ [HEv c (o h c)]) (k (o h c))) as [[a | ] t];
      cbn [fst snd]; [ | reflexivity].
    rewrite <- app_assoc. reflexivity.
  - reflexivity.
Qed.

Lemma forever_stuck {A : Type} (fuel : nat) : @forever A fuel = HStuck.
Proof. induction fuel as [| n IH]; [reflexivity | exact IH]. Qed.

Lemma hcalls_polls (c : hwcall) (n : nat) :
  forall h, hcalls (polls o h c n) = repeat c n.
Proof.
  induction n as [| n IH]; intros h; [reflexivity | ].
  cbn [polls hcalls map hev_call repeat]. f_equal. apply IH.
Qed.

Lemma only_hrun (P : hwcall -> bool) {A : Type} (p : hprog A) :
  only P p -> forall h, forallb P (hcalls (snd (hrun o h p))) = true.
Proof.
  induction 1 as [a | | c k Hc _ IH]; intros h; cbn [hrun snd hcalls map forallb].
  - reflexivity.
  - reflexivity.
  - specialize (IH (o h c) (h ++ [HEv c (o h c)])).
    destruct (hrun o (h ++ [HEv c (o h c)]) (k (o h c))) as [a t].
    cbn [snd hcalls map hev_call forallb] in *. rewrite Hc. exact IH.
Qed.

Lemma guarded_hrun (first : hevent -> bool) (g : hwcall -> bool) {A : Type} (p : hprog A) :
  guarded first g p ->
  forall h, never_before first (is_call g) (snd (hrun o h p)) = true.
Proof.
  induction 1 as [a | | c k Hg _ IH]; intros h; cbn [hrun snd never_before].
  - reflexivity.
  - reflexivity.
  - specialize (IH (o h c)).
    destruct (hrun o (h ++ [HEv c (o h c)]) (k (o h c))) as [a t] eqn:E.
    cbn [snd never_before].
    destruct (first (HEv c (o h c))) eqn:Hf; [reflexivity | ].
    specialize (IH eq_refl (h ++ [HEv c (o h c)])). rewrite E in IH. cbn [snd] in IH.
    rewrite IH. unfold is_call. cbn [hev_call].
    destruct (g c) eqn:Hgc; [ | reflexivity].
    rewrite (Hg eq_refl (o h c)) in Hf. discriminate.
Qed.

End Hrun.

(** The two predicates on programs, through sequences and loops. *)
Lemma only_hbind (P : hwcall -> bool) {A B : Type} (p : hprog A) (f : A -> hprog B) :
  only P p -> (forall a, only P (f a)) -> only P (hbind p f).
Proof.
  intros Hp Hf. induction Hp as [a | | c k Hc _ IH]; cbn [hbind].
  - apply Hf.
  - constructor.
  - constructor; [exact Hc | exact IH].
Qed.

Lemma only_hcall (P : hwcall -> bool) (c : hwcall) : P c = true -> only P (hcall c).
Proof. intros Hc. constructor; [exact Hc | intros r; constructor]. Qed.

Lemma only_forever (P : hwcall -> bool) {A : Type} (fuel : nat) : only P (@forever A fuel).
Proof. rewrite forever_stuck. constructor. Qed.

Lemma only_while_busy (P : hwcall -> bool) (c : hwcall) (busy : hwresult c -> bool) :
  P c = true -> forall fuel, only P (while_busy fuel c busy).
Proof.
  intros Hc. induction fuel as [| fuel IH]; cbn [while_busy].
  - constructor.
  - constructor; [exact Hc | ]. intros r. destruct (busy r); [exact IH | constructor].
Qed.

(** A program without calls of [g] in front of a guarded program. *)
Lemma guarded_hbind (first : hevent -> bool) (g : hwcall -> bool) {A B : Type}
    (p : hprog A) (f : A -> hprog B) :
  only (fun c => negb (g c)) p -> (forall a, guarded first g (f a)) ->
  guarded first g (hbind p f).
Proof.
  intros Hp Hf. induction Hp as [a | | c k Hc _ IH]; cbn [hbind].
  - apply Hf.
  - constructor.
  - constructor.
    + intros Hg. rewrite Hg in Hc. discriminate.
    + intros r _. apply IH.
Qed.

(** A loop that is only left on an answer that satisfies [first]: whatever
    follows the loop comes after that answer. *)
Lemma guarded_while_busy (first : hevent -> bool) (g : hwcall -> bool) {B : Type}
    (c : hwcall) (busy : hwresult c -> bool) (f : unit -> hprog B) :
  g c = false ->
  (forall r, busy r = false -> first (HEv c r) = true) ->
  forall fuel, guarded first g (hbind (while_busy fuel c busy) f).
Proof.
  intros Hg Hexit. induction fuel as [| fuel IH]; cbn [while_busy hbind].
  - constructor.
  - constructor.
    + intros Hgc. rewrite Hgc in Hg. discriminate.
    + intros r Hf. destruct (busy r) eqn:Hb; [exact IH | ].
      rewrite (Hexit r Hb) in Hf. discriminate.
Qed.

(** A loop whose condition is false at the latest from the poll number [n]
    on (polls counted since [h], with [t0] already done) is left within
    [n] further polls, given the fuel for them. *)
Lemma while_busy_returns (o : horacle) (P : hwcall -> bool) (c : hwcall)
    (busy : hwresult c -> bool) (h : htrace) (n : nat) :
  P c = true ->
  (forall t, (n <= count (is_call P) t)%nat -> busy (o (h ++ t) c) = false) ->
  forall (fuel : nat) (t0 : htrace),
    (n - count (is_call P) t0 < fuel)%nat ->
    exists m : nat,
      (m <= n - count (is_call P) t0)%nat /\
      hrun o (h ++ t0) (while_busy fuel c busy) = (Some tt, polls o (h ++ t0) c (S m)).
Proof.
  intros HP Hready. induction fuel as [| fuel IH]; intros t0 Hfuel; [lia | ].
  cbn [while_busy hrun].
  destruct (busy (o (h ++ t0) c)) eqn:Hb.
  - assert (Hlt : (count (is_call P) t0 < n)%nat).
    { destruct (Nat.lt_ge_cases (count (is_call P) t0) n) as [Hlt | Hge]; [exact Hlt | ].
      rewrite (Hready t0 Hge) in Hb. discriminate. }
    assert (Hc : count (is_call P) (t0 ++ [HEv c (o (h ++ t0) c)]) =
                 S (count (is_call P) t0)).
    { rewrite count_app, count_cons. unfold is_call at 2. cbn [hev_call].
      rewrite HP. cbn. lia. }
    destruct (IH (t0 ++ [HEv c (o (h ++ t0) c)])) as [m [Hm Hrun]]; [lia | ].
    exists (S m). split; [lia | ].
    rewrite <- app_assoc. rewrite app_assoc in Hrun. rewrite app_assoc.
    rewrite Hrun. reflexivity.
  - exists 0%nat. split; [lia | reflexivity].
Qed.

(* ================================================================= *)
(** ** The character handler *)

Section Putchar.

Variable value : board_const -> Z.
Variable o : horacle.
Variable h : htrace.

(** X5: [__io_putchar] (or [fputc]), when the transmitter reports empty at the
    latest from its poll number [n] on: the handler returns the character it
    was given, unchanged even when it is not a byte; it has written once to
    the transmitter, the character modulo 256, before the first poll; and it
    has polled the flag at most [n + 1] times and made no other call. *)
Theorem io_putchar_returns (ch : Z) (n fuel : nat) :
  (n < fuel)%nat ->
  (forall t, (n <= count_txe_polls t)%nat ->
             o (h ++ t) (LL_USART_IsActiveFlag_TXE (value USART2)) <> 0) ->
  exists m : nat,
    (m <= n)%nat /\
    fst (hrun o h (__io_putchar value fuel ch)) = Some ch /\
    hcalls (snd (hrun o h (__io_putchar value fuel ch))) =
      LL_USART_TransmitData8 (value USART2) (ch mod 256) ::
      repeat (LL_USART_IsActiveFlag_TXE (value USART2)) (S m).
Proof.
  intros Hfuel Hready.
  set (sent := HEv (LL_USART_TransmitData8 (value USART2) (ch mod 256))
                   (o h (LL_USART_TransmitData8 (value USART2) (ch mod 256)))).
  destruct (while_busy_returns o
              (fun x => match x with LL_USART_IsActiveFlag_TXE _ => true | _ => false end)
              (LL_USART_IsActiveFlag_TXE (value USART2)) (fun r => r =? 0) h n eq_refl)
    with (fuel := fuel) (t0 := [sent]) as [m [Hm Hrun]].
  - intros t Ht. apply Z.eqb_neq. apply Hready. exact Ht.
  - cbn. lia.
  - exists m. split; [cbn in Hm; lia | ].
    unfold __io_putchar. cbn [hbind hcall hrun]. fold sent.
    rewrite hrun_bind. rewrite Hrun. cbn [fst snd hrun hcalls map hev_call].
    rewrite app_nil_r. fold (hcalls (polls o (h ++ [sent])
                                       (LL_USART_IsActiveFlag_TXE (value USART2)) (S m))).
    rewrite hcalls_polls. split; reflexivity.
Qed.

End Putchar.

Lemma io_putchar_returns_witness :
  exists m : nat,
    (m <= 2)%nat /\
    fst (hrun (board 4 2) [] (__io_putchar stm32_value 5 (-1))) = Some (-1) /\
    hcalls (snd (hrun (board 4 2) [] (__io_putchar stm32_value 5 (-1)))) =
      LL_USART_TransmitData8 (stm32_value USART2) ((-1) mod 256) ::
      repeat (LL_USART_IsActiveFlag_TXE (stm32_value USART2)) (S m).
Proof.
  apply (io_putchar_returns stm32_value (board 4 2) [] (-1) 2 5).
  - lia.
  - intros t Ht. cbn [app board].
    destruct (Nat.leb_spec 2 (count_txe_polls t)); [discriminate | lia].
Defined.

(* ================================================================= *)
(** ** [SystemClock_Config] *)

(** Steps through a program: sequences, calls, loops and the two-way
    tests on an answer. *)
Ltac only_steps :=
  repeat first
    [ apply only_hbind; [ | let r := fresh "r" in intros r; cbn [hwresult] in r ]
    | match goal with
      | |- only ?P (hcall ?c) => exact (only_hcall P c eq_refl)
      end
    | apply only_while_busy; reflexivity
    | apply only_forever
    | apply only_ret
    | match goal with
      | |- only _ (if ?b then _ else _) => destruct b
      end ].

Section Clock.

Variable value : board_const -> Z.

Lemma LL_Init_only :
  only is_bring_up (LL_Init value).
Proof. unfold LL_Init, set_priority_0_0. only_steps. Qed.

Lemma SystemClock_Config_only (fuel : nat) :
  only is_bring_up (SystemClock_Config value fuel).
Proof. unfold SystemClock_Config, set_priority_0_0. only_steps. Qed.

Lemma USART_Printf_Init_only :
  only is_bring_up (USART_Printf_Init value).
Proof. unfold USART_Printf_Init. only_steps. Qed.

End Clock.

Lemma hcalls_app (t1 t2 : htrace) : hcalls (t1 ++ t2) = hcalls t1 ++ hcalls t2.
Proof. apply map_app. Qed.

Ltac guarded_steps :=
  repeat first
    [ apply guarded_while_busy;
      [ reflexivity
      | let r := fresh "r" in
        let Hr := fresh "Hr" in
        intros r Hr; cbn [is_poll_ready]; apply negb_false_iff in Hr; exact Hr ]
    | apply guarded_hbind;
      [ solve [only_steps]
      | let r := fresh "r" in intros r; cbn [hwresult] in r ] ].

Section Clock_config.

Variable value : board_const -> Z.
Variable o : horacle.
Variable h : htrace.

(** X6: [SystemClock_Config] when the flash latency does not read back as
    written: the function never returns, whatever the fuel, and it has made
    no call but the write and the read of the latency; the regulator and the
    clocks are not touched. *)
Theorem SystemClock_Config_halts_on_flash_latency (fuel : nat) :
  o (h ++ [HEv (LL_FLASH_SetLatency (value LL_FLASH_LATENCY_4))
               (o h (LL_FLASH_SetLatency (value LL_FLASH_LATENCY_4)))])
    LL_FLASH_GetLatency <> value LL_FLASH_LATENCY_4 ->
  fst (hrun o h (SystemClock_Config value fuel)) = None /\
  hcalls (snd (hrun o h (SystemClock_Config value fuel))) =
    [LL_FLASH_SetLatency (value LL_FLASH_LATENCY_4); LL_FLASH_GetLatency].
Proof.
  intros Hlat. apply Z.eqb_neq in Hlat.
  unfold SystemClock_Config. cbn [hbind hcall hrun].
  rewrite hrun_bind. rewrite Hlat. cbn [negb].
  rewrite forever_stuck. cbn [hrun fst snd hcalls map hev_call].
  split; reflexivity.
Qed.

(** X7: [SystemClock_Config], in every environment and for every fuel, that
    is on every prefix of every execution: nothing but the flash latency is
    touched before the latency has read back as written; the MSI range and
    the PLL are set up and the PLL is started only after the MSI oscillator
    has reported ready; the system clock is switched to the PLL only after
    the PLL has reported ready; the bus prescalers and the tick are set only
    after the clock status has read back as PLL. *)
Theorem SystemClock_Config_waits_before_each_step (fuel : nat) :
  never_before (is_poll_ready LL_FLASH_GetLatency (value LL_FLASH_LATENCY_4))
    (is_call (fun x => negb (is_flash_latency x)))
    (snd (hrun o h (SystemClock_Config value fuel))) = true /\
  never_before (is_poll_ready LL_RCC_MSI_IsReady 1) (is_call is_after_msi_ready)
    (snd (hrun o h (SystemClock_Config value fuel))) = true /\
  never_before (is_poll_ready LL_RCC_PLL_IsReady 1) (is_call is_set_sysclk_source)
    (snd (hrun o h (SystemClock_Config value fuel))) = true /\
  never_before (is_poll_ready LL_RCC_GetSysClkSource (value LL_RCC_SYS_CLKSOURCE_STATUS_PLL))
    (is_call is_after_clock_switch)
    (snd (hrun o h (SystemClock_Config value fuel))) = true.
Proof.
  split; [ | split; [ | split]]; apply guarded_hrun; unfold SystemClock_Config.
  - apply guarded_hbind; [solve [only_steps] | intros _].
    cbn [hbind hcall]. apply guarded_call.
    + intros Hg. discriminate.
    + intros r Hr. cbn [is_poll_ready] in Hr. rewrite Hr. cbn [negb].
      rewrite forever_stuck. cbn [hbind]. constructor.
  - guarded_steps.
  - guarded_steps.
  - guarded_steps.
Qed.

End Clock_config.

(** [SystemClock_Config] is followed through call by call, each call at
    an arbitrary history, to see that it returns. *)
Section Returns.

Variable o : horacle.

Lemma returns_call (c : hwcall) (k : hwresult c -> hprog unit) (h : htrace) :
  (forall h', fst (hrun o h' (k (o h c))) = Some tt) ->
  fst (hrun o h (HCall c k)) = Some tt.
Proof.
  intros Hk. specialize (Hk (h ++ [HEv c (o h c)])). cbn [hrun].
  destruct (hrun o (h ++ [HEv c (o h c)]) (k (o h c))) as [a t]. exact Hk.
Qed.

Lemma returns_wait (P : hwcall -> bool) (c : hwcall) (busy : hwresult c -> bool)
    (k : unit -> hprog unit) (n fuel : nat) (h : htrace) :
  P c = true ->
  (forall h', (n <= count (is_call P) h')%nat -> busy (o h' c) = false) ->
  (n < fuel)%nat ->
  (forall h', fst (hrun o h' (k tt)) = Some tt) ->
  fst (hrun o h (hbind (while_busy fuel c busy) k)) = Some tt.
Proof.
  intros HP Hready Hfuel Hk.
  destruct (while_busy_returns o P c busy [] n HP Hready fuel h ltac:(lia))
    as [m [_ Hrun]].
  change ([] ++ h) with h in Hrun.
  rewrite hrun_bind, Hrun. cbn [fst snd]. apply Hk.
Qed.

End Returns.

Section Clock_ready.

Variable value : board_const -> Z.
Variable o : horacle.
Variable n : nat.

Hypothesis latency_reads_back :
  forall h, o h LL_FLASH_GetLatency = value LL_FLASH_LATENCY_4.
Hypothesis msi_ready :
  forall h, (n <= count (is_call is_msi_poll) h)%nat -> o h LL_RCC_MSI_IsReady = 1.
Hypothesis pll_ready :
  forall h, (n <= count (is_call is_pll_poll) h)%nat -> o h LL_RCC_PLL_IsReady = 1.
Hypothesis sysclk_switched :
  forall h, (n <= count (is_call is_sysclk_poll) h)%nat ->
            o h LL_RCC_GetSysClkSource = value LL_RCC_SYS_CLKSOURCE_STATUS_PLL.

(** With hardware that follows and fuel for its polls, [SystemClock_Config]
    returns. *)
Lemma SystemClock_Config_run (fuel : nat) :
  (n < fuel)%nat ->
  forall h, fst (hrun o h (SystemClock_Config value fuel)) = Some tt.
Proof.
  intros Hfuel.
  unfold SystemClock_Config, set_priority_0_0. cbn [hbind hcall].
  repeat first
    [ intros ?h; apply (returns_wait o is_msi_poll) with (n := n);
      [ reflexivity
      | let hh := fresh "hh" in let Hh := fresh "Hh" in
        intros hh Hh; rewrite (msi_ready hh Hh); reflexivity
      | exact Hfuel | ]
    | intros ?h; apply (returns_wait o is_pll_poll) with (n := n);
      [ reflexivity
      | let hh := fresh "hh" in let Hh := fresh "Hh" in
        intros hh Hh; rewrite (pll_ready hh Hh); reflexivity
      | exact Hfuel | ]
    | intros ?h; apply (returns_wait o is_sysclk_poll) with (n := n);
      [ reflexivity
      | let hh := fresh "hh" in let Hh := fresh "Hh" in
        intros hh Hh; rewrite (sysclk_switched hh Hh), Z.eqb_refl; reflexivity
      | exact Hfuel | ]
    | intros ?h; apply returns_call;
      cbv beta; rewrite ?latency_reads_back, ?Z.eqb_refl; cbn [negb hbind]
    | intros ?h; cbn [hcall hrun fst snd];
      match goal with
      | |- Some ?r = _ => destruct r
      end; reflexivity ].
Qed.

End Clock_ready.

Lemma SystemClock_Config_halts_on_flash_latency_witness :
  fst (hrun (board 5 0) [] (SystemClock_Config stm32_value 3)) = None /\
  hcalls (snd (hrun (board 5 0) [] (SystemClock_Config stm32_value 3))) =
    [LL_FLASH_SetLatency (stm32_value LL_FLASH_LATENCY_4); LL_FLASH_GetLatency].
Proof.
  apply (SystemClock_Config_halts_on_flash_latency stm32_value (board 5 0) [] 3).
  discriminate.
Defined.

(* ================================================================= *)
(** ** [main] *)

Lemma loopfree_returns (o : horacle) {A : Type} (p : hprog A) :
  loopfree p -> forall h, exists a, fst (hrun o h p) = Some a.
Proof.
  induction p as [a | c k IH | ]; cbn [loopfree hrun]; intros Hp h.
  - exists a. reflexivity.
  - destruct (IH (o h c) (Hp (o h c)) (h ++ [HEv c (o h c)])) as [a Ha].
    exists a. destruct (hrun o (h ++ [HEv c (o h c)]) (k (o h c))). exact Ha.
  - destruct Hp.
Qed.

Section Main_ready.

Variable value : board_const -> Z.
Variable o : horacle.
Variable n : nat.

Hypothesis latency_reads_back :
  forall h, o h LL_FLASH_GetLatency = value LL_FLASH_LATENCY_4.
Hypothesis msi_ready :
  forall h, (n <= count (is_call is_msi_poll) h)%nat -> o h LL_RCC_MSI_IsReady = 1.
Hypothesis pll_ready :
  forall h, (n <= count (is_call is_pll_poll) h)%nat -> o h LL_RCC_PLL_IsReady = 1.
Hypothesis sysclk_switched :
  forall h, (n <= count (is_call is_sysclk_poll) h)%nat ->
            o h LL_RCC_GetSysClkSource = value LL_RCC_SYS_CLKSOURCE_STATUS_PLL.

Lemma LL_Init_loopfree : loopfree (LL_Init value).
Proof.
  unfold LL_Init, set_priority_0_0. cbn [hbind hcall loopfree]. intros. exact I.
Qed.

Lemma USART_Printf_Init_loopfree : loopfree (USART_Printf_Init value).
Proof.
  unfold USART_Printf_Init. cbn [hbind hcall loopfree]. intros. exact I.
Qed.


End Main_ready.

